(** * KrakenBot (main.py): one trading cycle and its risk controls

    A shallow embedding of [KrakenBot] from [main.py].

    Numbers.  The program computes on Python floats, which are binary64
    numbers.  A float is modelled by the rational it denotes ([Q]), and the
    numbers a world hands to the program are the floats the program reads.
    Comparison, [abs], [min] and [max] are exact on floats and are the exact
    operations here.  In the sizing of a buy and in its stop price every
    operation rounds as binary64 does ([F64.rnd]: to nearest, ties to even,
    53 bits, subnormal numbers from 2^-1074): the two quotients, the cost,
    [1 - stop_loss_pct], the product with the last close, and [round(x, 1)],
    which is the float nearest to the nearest tenth; division by zero raises
    as in Python.  The exponent is not bounded above: where a result would
    pass the largest float the program has inf, which is outside this model,
    as is nan.  The difference of forecast and last close, the portion of a
    sell and its profit are the exact operations.

    Effects.  The bot talks to the exchange through [krakenex], fits an
    ARIMA model, prints, appends rows to a CSV file and sleeps.  The exchange,
    the clock and the forecaster are parameters (a [world]); every method of
    the class is a computation in a small state-and-exception monad whose
    state holds the two balance attributes of the object and the rows
    appended to the CSV file, and which produces the list of everything the
    bot did towards the outside, in order. *)

From Stdlib Require Import String ZArith QArith Qabs Qround Qminmax Qpower
  Qreduction List Bool Lia Lqa.
Import ListNotations.

Open Scope string_scope.
Open Scope list_scope.
Open Scope Q_scope.

(** ** Python builtins on numbers *)

Module Py.

(** [x > y] and [x < y]. *)
Definition gt (x y : Q) : bool := negb (Qle_bool x y).
Definition lt (x y : Q) : bool := gt y x.

(** [min(a, b)] and [max(a, b)]: the first argument is kept unless the
    second is strictly smaller (resp. larger). *)
Definition min (a b : Q) : Q := if lt b a then b else a.
Definition max (a b : Q) : Q := if gt b a then b else a.

(** Nearest integer, ties to the even one. *)
Definition round_half_even (x : Q) : Z :=
  let f := Qfloor x in
  match Qcompare (x - inject_Z f) (1 # 2) with
  | Lt => f
  | Gt => (f + 1)%Z
  | Eq => if Z.even f then f else (f + 1)%Z
  end.

(** [round(x, 1)]: the nearest multiple of one tenth, ties to even. *)
Definition round1 (x : Q) : Q := round_half_even (x * 10) # 10.

(** Truth value of a list (or of a dict given by its items). *)
Definition truthy {A : Type} (l : list A) : bool :=
  match l with [] => false | _ :: _ => true end.

(** [l[start:]]. *)
Definition slice_from {A : Type} (start : Z) (l : list A) : list A :=
  let n := Z.of_nat (length l) in
  let s := if (start <? 0)%Z then Z.max (start + n) 0 else Z.min start n in
  skipn (Z.to_nat s) l.

(** [l[-1]], [None] where Python raises IndexError. *)
Definition last_item {A : Type} (l : list A) : option A :=
  match rev l with [] => None | x :: _ => Some x end.

End Py.

(** ** Binary64 *)

Module F64.

(** [2 ^ e]. *)
Definition pow2 (e : Z) : Q := 2 ^ e.

(** The exponent of the binade of [x]: [2 ^ ilog2 x <= |x| < 2 ^ (ilog2 x + 1)]
    for [x] other than zero. *)
Definition ilog2 (x : Q) : Z :=
  let e := (Z.log2 (Z.abs (Qnum x)) - Z.log2 (Zpos (Qden x)))%Z in
  if Qle_bool (pow2 e) (Qabs x) then e else (e - 1)%Z.

(** The distance between the floats around [x]: 53 bits in the binade of
    [x], and 2^-1074 below 2^-1022. *)
Definition quantum (x : Q) : Q := pow2 (Z.max (ilog2 x - 52) (-1074)).

(** The float nearest to [x], the one with an even last bit on a tie. *)
Definition rnd (x : Q) : Q :=
  Qred (inject_Z (Py.round_half_even (x / quantum x)) * quantum x).


End F64.

(** ** Data *)

(** The constructor arguments of [KrakenBot] (the API keys apart). *)
Record KrakenBot : Type := mkBot {
  pair : string;
  lookback : Z;
  max_usd_per_order : Q;
  sell_percentage : Q;
  stop_loss_pct : Q;
  csv_file : string
}.

(** The defaults of [__init__]; [0.10] is the float nearest to one tenth,
    [0.25] is a float. *)
Definition default_bot : KrakenBot :=
  {| pair := "XXBTZUSD"; lookback := 50; max_usd_per_order := 33;
     sell_percentage := 25 # 100; stop_loss_pct := F64.rnd (10 # 100);
     csv_file := "trading_log.csv" |}.

(** A reply of the exchange: the ['error'] list and the ['result']
    (which the program reads only when the error list is empty). *)
Record reply (A : Type) : Type := mkReply {
  error : list string;
  result : A
}.
Arguments mkReply {A} _ _.
Arguments error {A} _.
Arguments result {A} _.

(** One OHLC bar, [d[4]] is the close. *)
Record bar : Type := mkBar {
  b_time : Z; b_open : Q; b_high : Q; b_low : Q; b_close : Q;
  b_vwap : Q; b_volume : Q; b_count : Z
}.

(** The two entries of the balance dict that the program reads. *)
Record balances : Type := mkBalances {
  ZUSD : option Q;
  XXBT : option Q
}.

Inductive side : Type := buy | sell.
Inductive ordertype : Type := market | stop_loss.

(** The parameters of an ['AddOrder'] request. *)
Record order : Type := mkOrder {
  o_pair : string;
  o_type : side;
  o_ordertype : ordertype;
  o_price : option Q;
  o_volume : Q
}.

(** The result dict of ['AddOrder'], by its items. *)
Definition order_result : Type := list (string * string).

(** A row of the CSV file, in the order of the header. *)
Record row : Type := mkRow {
  r_timestamp : string;
  r_predicted_price : Q;
  r_close_price : Q;
  r_difference : Q;
  r_action : side;
  r_volume : Q;
  r_expenditure : Q;
  r_profit : Q;
  r_usd_balance : Q;
  r_btc_balance : Q
}.

(** What [print] writes. *)
Inductive message : Type :=
| ErrorFetchingOHLC (e : list string)
| ErrorFetchingBalance (e : list string)
| ErrorPlacingOrder (e : list string)
| ErrorPlacingStopLoss (e : list string)
| NoDataFetched
| LastClosePredictedDifference (last_close predicted_price difference : Q)
| USDBalance (usd_balance : Q)
| BTCBalance (btc_balance : Q)
| BuyingBTC (volume last_close : Q)
| PlacedStopLoss (stop_price : Q)
| SellingBTC (volume last_close : Q)
| FailedToPlaceSellOrder
| WaitingForNextCycle.

(** What the bot does, as seen from outside. *)
Inductive event : Type :=
| OHLC (p : string) (r : reply (list bar))
| Balance (r : reply balances)
| AddOrder (o : order) (r : reply order_result)
| Forecast (closes : list Q)
| Print (m : message)
| Sleep (seconds : Z).

(** The three outcomes of the test on the forecast in [run]. *)
Inductive signal : Type := BUY | SELL | HOLD.

(** The environment: the exchange's reply to the [n]-th request, the
    clock, and the one-step forecast of the ARIMA(5,1,0) fit. *)
Record world : Type := mkWorld {
  ohlc_reply : nat -> string -> reply (list bar);
  balance_reply : nat -> reply balances;
  order_reply : nat -> order -> reply order_result;
  now : nat -> string;
  arima_forecast : list Q -> Q
}.

(** The mutable part: the attributes [usd_balance] and [btc_balance], the
    rows appended to the CSV file, and the number of requests sent to the
    exchange so far. *)
Record state : Type := mkState {
  usd_balance : Q;
  btc_balance : Q;
  csv : list row;
  requests : nat
}.

(** The state after [__init__]. *)
Definition init_state : state :=
  {| usd_balance := 0; btc_balance := 0; csv := []; requests := 0 |}.

(** ** The monad *)

Inductive exn : Type := ZeroDivisionError | IndexError.

Inductive res (A : Type) : Type :=
| Val (a : A)
| Exc (e : exn).
Arguments Val {A} _.
Arguments Exc {A} _.

(** A computation ends with a value or an exception, in a new state, and
    has produced events, oldest first. *)
Record outcome (A : Type) : Type := mkOutcome {
  value : res A;
  final : state;
  events : list event
}.
Arguments mkOutcome {A} _ _ _.
Arguments value {A} _.
Arguments final {A} _.
Arguments events {A} _.

Definition M (A : Type) : Type := state -> outcome A.

Definition ret {A : Type} (a : A) : M A := fun st => mkOutcome (Val a) st [].

Definition bind {A B : Type} (m : M A) (f : A -> M B) : M B :=
  fun st =>
    match m st with
    | mkOutcome (Val a) st' evs =>
        match f a st' with
        | mkOutcome v st'' evs' => mkOutcome v st'' (evs ++ evs')
        end
    | mkOutcome (Exc e) st' evs => mkOutcome (Exc e) st' evs
    end.

Definition raise {A : Type} (e : exn) : M A :=
  fun st => mkOutcome (Exc e) st [].

Declare Scope monad_scope.
Delimit Scope monad_scope with monad.
Notation "x <- m ;; k" := (bind m (fun x => k))
  (at level 61, m at next level, right associativity) : monad_scope.
Notation "' pat <- m ;; k" := (bind m (fun x => match x with pat => k end))
  (at level 61, pat pattern, m at next level, right associativity) : monad_scope.
Notation "m ;; k" := (bind m (fun _ => k))
  (at level 61, right associativity) : monad_scope.
Open Scope monad_scope.

Definition emit (e : event) : M unit := fun st => mkOutcome (Val tt) st [e].

Definition print (m : message) : M unit := emit (Print m).

(** A request to the exchange: the reply is the world's, the exchange is
    seen to receive it and the request counter advances. *)
Definition request {A : Type} (ask : nat -> reply A) (ev : reply A -> event)
  : M (reply A) :=
  fun st =>
    let r := ask (requests st) in
    mkOutcome (Val r)
      {| usd_balance := usd_balance st; btc_balance := btc_balance st;
         csv := csv st; requests := S (requests st) |}
      [ev r].

Definition set_balances (usd btc : Q) : M unit :=
  fun st =>
    mkOutcome (Val tt)
      {| usd_balance := usd; btc_balance := btc; csv := csv st;
         requests := requests st |}
      [].

Definition append_row (r : row) : M unit :=
  fun st =>
    mkOutcome (Val tt)
      {| usd_balance := usd_balance st; btc_balance := btc_balance st;
         csv := csv st ++ [r]; requests := requests st |}
      [].

Definition timestamp (w : world) : M string :=
  fun st => mkOutcome (Val (now w (requests st))) st [].

(** [x / y] on floats. *)
Definition fdiv (x y : Q) : M Q :=
  if Qeq_bool y 0 then raise ZeroDivisionError else ret (F64.rnd (x / y)).

(** [x * y] and [x - y] on floats. *)
Definition fmul (x y : Q) : Q := F64.rnd (x * y).
Definition fsub (x y : Q) : Q := F64.rnd (x - y).

(** [round(x, 1)] on a float: the float nearest to the tenth nearest to
    [x]. *)
Definition round_1 (x : Q) : Q := F64.rnd (Py.round1 x).

(** ** The methods of [KrakenBot] *)

(** The dust threshold and the significance threshold, as written in [run]. *)
Definition dust : Q := 1 # 10000.
Definition threshold : Q := 15.

(** [if order_result:] on what [place_order] returns. *)
Definition truthy_result (r : option order_result) : bool :=
  match r with
  | Some items => Py.truthy items
  | None => false
  end.

(** The tests of [run] on the forecast:
    [if difference > 15: if predicted_price > last_close: ... elif
    predicted_price < last_close: ...]. *)
Definition classify (predicted_price last_close : Q) : signal :=
  let difference := Qabs (predicted_price - last_close) in
  if Py.gt difference threshold then
    if Py.gt predicted_price last_close then BUY
    else if Py.lt predicted_price last_close then SELL
    else HOLD
  else HOLD.

(** The parameters [place_order] sends. *)
Definition market_order (self : KrakenBot) (order_type : side) (volume : Q)
  : order :=
  {| o_pair := pair self; o_type := order_type; o_ordertype := market;
     o_price := None; o_volume := volume |}.

(** The parameters [place_stop_loss] sends. *)
Definition stop_loss_order (self : KrakenBot) (stop_price volume : Q)
  : order :=
  {| o_pair := pair self; o_type := sell; o_ordertype := stop_loss;
     o_price := Some stop_price; o_volume := volume |}.

(** What the loop body tells the loop. *)
Inductive control : Type := Continue | Return.

(** How [run] ended within the cycles it was given. *)
Inductive run_result : Type := Returned | StillRunning.

Section Methods.

Variable w : world.
Variable self : KrakenBot.

Definition fetch_data : M (option (list bar)) :=
  ohlc <- request (fun n => ohlc_reply w n (pair self)) (OHLC (pair self)) ;;
  if Py.truthy (error ohlc) then
    print (ErrorFetchingOHLC (error ohlc)) ;;
    ret None
  else ret (Some (result ohlc)).

Definition calculate_arima (data : list bar) : M Q :=
  let closes := map b_close data in
  emit (Forecast closes) ;;
  ret (arima_forecast w closes).

Definition get_balance : M (Q * Q) :=
  balance <- request (balance_reply w) Balance ;;
  if Py.truthy (error balance) then
    print (ErrorFetchingBalance (error balance)) ;;
    ret (0, 0)
  else
    let usd := match ZUSD (result balance) with Some x => x | None => 0 end in
    let btc := match XXBT (result balance) with Some x => x | None => 0 end in
    ret (usd, btc).

Definition place_order (order_type : side) (volume : Q)
  : M (option order_result) :=
  let o := market_order self order_type volume in
  response <- request (fun n => order_reply w n o) (AddOrder o) ;;
  if Py.truthy (error response) then
    print (ErrorPlacingOrder (error response)) ;;
    ret None
  else ret (Some (result response)).

Definition place_stop_loss (stop_price volume : Q)
  : M (option order_result) :=
  let stop_price := round_1 stop_price in
  let o := stop_loss_order self stop_price volume in
  response <- request (fun n => order_reply w n o) (AddOrder o) ;;
  if Py.truthy (error response) then
    print (ErrorPlacingStopLoss (error response)) ;;
    ret None
  else ret (Some (result response)).

Definition log_trade (predicted_price last_close : Q) (action : side)
  (volume expenditure profit : Q) : M unit :=
  let difference := predicted_price - last_close in
  ts <- timestamp w ;;
  '(usd, btc) <- get_balance ;;
  set_balances usd btc ;;
  append_row {| r_timestamp := ts; r_predicted_price := predicted_price;
                r_close_price := last_close; r_difference := difference;
                r_action := action; r_volume := volume;
                r_expenditure := expenditure; r_profit := profit;
                r_usd_balance := usd; r_btc_balance := btc |}.

(** [run], the branch [predicted_price > last_close]. *)
Definition buy_flow (predicted_price last_close : Q) : M unit :=
  '(usd, _) <- get_balance ;;
  print (USDBalance usd) ;;
  if Py.gt usd 0 then
    max_volume <- fdiv (max_usd_per_order self) last_close ;;
    balance_volume <- fdiv usd last_close ;;
    let volume := Py.min max_volume balance_volume in
    if Py.gt volume dust then
      order_result <- place_order buy volume ;;
      if truthy_result order_result then
        print (BuyingBTC volume last_close) ;;
        let expenditure := fmul volume last_close in
        let stop_price :=
          round_1 (fmul last_close (fsub 1 (stop_loss_pct self))) in
        stop_loss_result <- place_stop_loss stop_price volume ;;
        (if truthy_result stop_loss_result
         then print (PlacedStopLoss stop_price) else ret tt) ;;
        log_trade predicted_price last_close buy volume expenditure 0
      else ret tt
    else ret tt
  else ret tt.

(** [run], the branch [predicted_price < last_close]. *)
Definition sell_flow (predicted_price last_close : Q) : M unit :=
  '(_, btc) <- get_balance ;;
  print (BTCBalance btc) ;;
  if Py.gt btc dust then
    let portion_volume := btc * sell_percentage self in
    let volume_to_sell := Py.max (Py.min portion_volume btc) dust in
    if Py.gt volume_to_sell dust then
      print (SellingBTC volume_to_sell last_close) ;;
      order_result <- place_order sell volume_to_sell ;;
      if truthy_result order_result then
        let profit := volume_to_sell * last_close in
        log_trade predicted_price last_close sell volume_to_sell 0 profit
      else print FailedToPlaceSellOrder
    else ret tt
  else ret tt.

(** [run], one pass through the body of [while True]. *)
Definition cycle : M control :=
  data <- fetch_data ;;
  match data with
  | None =>
      print NoDataFetched ;;
      ret Return
  | Some data =>
      let data := Py.slice_from (- lookback self) data in
      predicted_price <- calculate_arima data ;;
      last_bar <- match Py.last_item data with
                  | Some d => ret d
                  | None => raise IndexError
                  end ;;
      let last_close := b_close last_bar in
      let difference := Qabs (predicted_price - last_close) in
      print (LastClosePredictedDifference last_close predicted_price
               difference) ;;
      match classify predicted_price last_close with
      | BUY => buy_flow predicted_price last_close
      | SELL => sell_flow predicted_price last_close
      | HOLD => ret tt
      end ;;
      print WaitingForNextCycle ;;
      emit (Sleep (60 * 60)) ;;
      ret Continue
  end.

(** [run], cut after [fuel] passes. *)
Fixpoint run (fuel : nat) : M run_result :=
  match fuel with
  | O => ret StillRunning
  | S fuel' =>
      c <- cycle ;;
      match c with
      | Return => ret Returned
      | Continue => run fuel'
      end
  end.

End Methods.

(** ** Reading a trace *)

(** The orders sent, with the exchange's replies. *)
Fixpoint orders_in (evs : list event) : list (order * reply order_result) :=
  match evs with
  | [] => []
  | AddOrder o r :: evs' => (o, r) :: orders_in evs'
  | _ :: evs' => orders_in evs'
  end.

(** The windows handed to the forecaster. *)
Fixpoint forecasts_in (evs : list event) : list (list Q) :=
  match evs with
  | [] => []
  | Forecast closes :: evs' => closes :: forecasts_in evs'
  | _ :: evs' => forecasts_in evs'
  end.

(** An order is accepted when [place_order] returns a true value: no error
    and a result. *)
Definition accepted (r : reply order_result) : bool :=
  negb (Py.truthy (error r)) && Py.truthy (result r).

(** No order follows a balance query that failed. *)
Fixpoint fails_closed (evs : list event) : Prop :=
  match evs with
  | [] => True
  | Balance r :: evs' =>
      (Py.truthy (error r) = true -> orders_in evs' = [])
      /\ fails_closed evs'
  | _ :: evs' => fails_closed evs'
  end.

(** ** Sample worlds *)

Definition flat_bar (c : Q) : bar := mkBar 0 c c c c c 0 0.

Definition ok {A : Type} (a : A) : reply A := mkReply [] a.
Definition failed {A : Type} (a : A) : reply A := mkReply ["EGeneral:Internal error"] a.

Definition txid : order_result := [("txid", "OAVY7T-MV5VK-KHDF5X")].

(** A world that always answers the same: the price history [bars], the
    balance reply [bal], the order replies [ord], and the forecast [f]. *)
Definition steady (bars : list bar) (bal : reply balances)
  (ord : order -> reply order_result) (f : Q) : world :=
  {| ohlc_reply := fun _ _ => ok bars;
     balance_reply := fun _ => bal;
     order_reply := fun _ o => ord o;
     now := fun _ => "2024-05-01 12:00:00";
     arima_forecast := fun _ => f |}.

Definition wallet (usd btc : Q) : reply balances :=
  ok {| ZUSD := Some usd; XXBT := Some btc |}.

(** Fifty bars closing at 100; the exchange accepts every order. *)
Definition calm_world (bal : reply balances) (f : Q) : world :=
  steady (repeat (flat_bar 100) 50) bal (fun _ => ok txid) f.

(** The same, but the exchange refuses stop-loss orders. *)
Definition no_stop_world (bal : reply balances) (f : Q) : world :=
  steady (repeat (flat_bar 100) 50) bal
    (fun o => match o_ordertype o with
              | market => ok txid
              | stop_loss => failed []
              end) f.

(** The same, but the exchange refuses every order. *)
Definition closed_world (bal : reply balances) (f : Q) : world :=
  steady (repeat (flat_bar 100) 50) bal (fun _ => failed []) f.

(** Thirty bars only, for the default look-back of fifty. *)
Definition young_world (f : Q) : world :=
  steady (repeat (flat_bar 100) 30) (wallet 50 2) (fun _ => ok txid) f.

(** The price history cannot be fetched. *)
Definition dark_world : world :=
  {| ohlc_reply := fun _ _ => failed [];
     balance_reply := fun _ => wallet 50 2;
     order_reply := fun _ _ => ok txid;
     now := fun _ => "2024-05-01 12:00:00";
     arima_forecast := fun _ => 120 |}.

(** The price history is fetched once (the forecast, 108, gives no trade)
    and cannot be fetched afterwards. *)
Definition fading_world : world :=
  {| ohlc_reply := fun n _ => match n with
                              | O => ok (repeat (flat_bar 100) 50)
                              | S _ => failed []
                              end;
     balance_reply := fun _ => wallet 50 2;
     order_reply := fun _ _ => ok txid;
     now := fun _ => "2024-05-01 12:00:00";
     arima_forecast := fun _ => 108 |}.

(** Forty-nine bars closing at 100 and a last one closing at 0, with a
    forecast of 20. *)
Definition crash_world : world :=
  steady (repeat (flat_bar 100) 49 ++ [flat_bar 0]) (wallet 50 2)
    (fun _ => ok txid) 20.


(** What [get_balance] returns on a reply of the exchange. *)
Definition balance_values (r : reply balances) : Q * Q :=
  if Py.truthy (error r) then (0, 0)
  else (match ZUSD (result r) with Some x => x | None => 0 end,
        match XXBT (result r) with Some x => x | None => 0 end).

(** ** What a cycle sends and records

    The orders a flow sends and the rows it appends, written as functions of
    the world and of the number [n] of requests sent before the flow starts.
    They are proved below to be what the flows do; the properties are then
    read off them. *)

Section Summary.

Variable w : world.
Variable self : KrakenBot.

(** The balances [get_balance] returns when it is request number [n]. *)
Definition usd_at (n : nat) : Q := fst (balance_values (balance_reply w n)).
Definition btc_at (n : nat) : Q := snd (balance_values (balance_reply w n)).

(** The row [log_trade] appends when its balance query is request [n]. *)
Definition logged_row (n : nat) (predicted_price last_close : Q)
  (action : side) (volume expenditure profit : Q) : row :=
  {| r_timestamp := now w n; r_predicted_price := predicted_price;
     r_close_price := last_close;
     r_difference := predicted_price - last_close;
     r_action := action; r_volume := volume;
     r_expenditure := expenditure; r_profit := profit;
     r_usd_balance := usd_at n; r_btc_balance := btc_at n |}.

Definition buy_volume (n : nat) (last_close : Q) : Q :=
  Py.min (F64.rnd (max_usd_per_order self / last_close))
    (F64.rnd (usd_at n / last_close)).

(** The buy flow reaches [place_order]. *)
Definition buy_sized (n : nat) (last_close : Q) : bool :=
  Py.gt (usd_at n) 0 && negb (Qeq_bool last_close 0)
  && Py.gt (buy_volume n last_close) dust.

Definition buy_reply (n : nat) (last_close : Q) : reply order_result :=
  order_reply w (S n) (market_order self buy (buy_volume n last_close)).

Definition stop_order (n : nat) (last_close : Q) : order :=
  stop_loss_order self
    (round_1 (round_1 (fmul last_close (fsub 1 (stop_loss_pct self)))))
    (buy_volume n last_close).

Definition buy_orders (n : nat) (last_close : Q)
  : list (order * reply order_result) :=
  if buy_sized n last_close then
    (market_order self buy (buy_volume n last_close), buy_reply n last_close)
    :: (if accepted (buy_reply n last_close)
        then [(stop_order n last_close,
               order_reply w (S (S n)) (stop_order n last_close))]
        else [])
  else [].

Definition buy_rows (n : nat) (predicted_price last_close : Q) : list row :=
  if buy_sized n last_close && accepted (buy_reply n last_close) then
    [logged_row (S (S (S n))) predicted_price last_close buy
       (buy_volume n last_close) (fmul (buy_volume n last_close) last_close)
       0]
  else [].

Definition buy_value (n : nat) (last_close : Q) : res unit :=
  if Py.gt (usd_at n) 0 && Qeq_bool last_close 0
  then Exc ZeroDivisionError else Val tt.

Definition sell_volume (n : nat) : Q :=
  Py.max (Py.min (btc_at n * sell_percentage self) (btc_at n)) dust.

(** The sell flow reaches [place_order]. *)
Definition sell_sized (n : nat) : bool :=
  Py.gt (btc_at n) dust && Py.gt (sell_volume n) dust.

Definition sell_reply (n : nat) : reply order_result :=
  order_reply w (S n) (market_order self sell (sell_volume n)).

Definition sell_orders (n : nat) : list (order * reply order_result) :=
  if sell_sized n
  then [(market_order self sell (sell_volume n), sell_reply n)]
  else [].

Definition sell_rows (n : nat) (predicted_price last_close : Q) : list row :=
  if sell_sized n && accepted (sell_reply n) then
    [logged_row (S (S n)) predicted_price last_close sell
       (sell_volume n) 0 (sell_volume n * last_close)]
  else [].

(** The price history fetched by request [n], and the window cut from it. *)
Definition history (n : nat) : list bar :=
  result (ohlc_reply w n (pair self)).

Definition window (n : nat) : list bar :=
  Py.slice_from (- lookback self) (history n).

Definition fetch_failed (n : nat) : bool :=
  Py.truthy (error (ohlc_reply w n (pair self))).

Definition forecast_at (n : nat) : Q :=
  arima_forecast w (map b_close (window n)).

Definition cycle_forecasts (n : nat) : list (list Q) :=
  if fetch_failed n then [] else [map b_close (window n)].

Definition cycle_orders (n : nat) : list (order * reply order_result) :=
  if fetch_failed n then []
  else
    match Py.last_item (window n) with
    | None => []
    | Some d =>
        match classify (forecast_at n) (b_close d) with
        | BUY => buy_orders (S n) (b_close d)
        | SELL => sell_orders (S n)
        | HOLD => []
        end
    end.

Definition cycle_rows (n : nat) : list row :=
  if fetch_failed n then []
  else
    match Py.last_item (window n) with
    | None => []
    | Some d =>
        match classify (forecast_at n) (b_close d) with
        | BUY => buy_rows (S n) (forecast_at n) (b_close d)
        | SELL => sell_rows (S n) (forecast_at n) (b_close d)
        | HOLD => []
        end
    end.

(** The state in which the flow of a cycle starts. *)
Definition after_fetch (st : state) : state :=
  {| usd_balance := usd_balance st; btc_balance := btc_balance st;
     csv := csv st; requests := S (requests st) |}.

(** The flow a cycle takes on its forecast. *)
Definition flow_of (p l : Q) : M unit :=
  match classify p l with
  | BUY => buy_flow w self p l
  | SELL => sell_flow w self p l
  | HOLD => ret tt
  end.

End Summary.

(** ** More readings of a trace *)

(** The number of requests sent to the exchange. *)
Fixpoint requests_in (evs : list event) : nat :=
  match evs with
  | [] => O
  | OHLC _ _ :: evs' => S (requests_in evs')
  | Balance _ :: evs' => S (requests_in evs')
  | AddOrder _ _ :: evs' => S (requests_in evs')
  | _ :: evs' => requests_in evs'
  end.

(** The sleeps, in seconds. *)
Fixpoint sleeps_in (evs : list event) : list Z :=
  match evs with
  | [] => []
  | Sleep seconds :: evs' => seconds :: sleeps_in evs'
  | _ :: evs' => sleeps_in evs'
  end.

(** The replies to the balance queries. *)
Fixpoint balances_in (evs : list event) : list (reply balances) :=
  match evs with
  | [] => []
  | Balance r :: evs' => r :: balances_in evs'
  | _ :: evs' => balances_in evs'
  end.

(** Every order comes after a balance query, and the latest balance query
    before it was answered without error ([sized] tells whether this holds
    of what came before [evs]). *)
Fixpoint orders_guarded (sized : bool) (evs : list event) : bool :=
  match evs with
  | [] => true
  | Balance r :: evs' => orders_guarded (negb (Py.truthy (error r))) evs'
  | AddOrder _ _ :: evs' => sized && orders_guarded sized evs'
  | _ :: evs' => orders_guarded sized evs'
  end.

(** * Properties *)

(** ** Numbers *)

Lemma gt_true (x y : Q) : Py.gt x y = true <-> y < x.
Proof.
  unfold Py.gt. rewrite negb_true_iff, <- not_true_iff_false, Qle_bool_iff.
  split; [apply Qnot_le_lt | apply Qlt_not_le].
Qed.








(** ** C1: the signal *)



(** ** Running the flows *)

Ltac step :=
  cbv beta iota zeta delta
      [bind ret raise emit print request set_balances append_row timestamp
       value final events fdiv
       fetch_data calculate_arima get_balance place_order place_stop_loss
       log_trade buy_flow sell_flow cycle
       truthy_result requests csv usd_balance btc_balance];
  cbn [app orders_in forecasts_in fst snd negb andb].

Ltac branch :=
  match goal with
  | |- context [if ?c then _ else _] => destruct c eqn:?
  | |- context [match ?c with Some _ => _ | None => _ end] => destruct c eqn:?
  | |- context [match ?c with BUY => _ | SELL => _ | HOLD => _ end] =>
      destruct c eqn:?
  end.

Ltac run_all := step; repeat (branch; step).

Section Flows.

Variable w : world.
Variable self : KrakenBot.

Lemma get_balance_value (st : state) :
  value (get_balance w st) = Val (usd_at w (requests st), btc_at w (requests st)).
Proof.
  unfold usd_at, btc_at, balance_values. run_all; reflexivity.
Qed.

Lemma buy_flow_summary (p l : Q) (st : state) :
  let out := buy_flow w self p l st in
  value out = buy_value w (requests st) l /\
  orders_in (events out) = buy_orders w self (requests st) l /\
  csv (final out) = csv st ++ buy_rows w self (requests st) p l.
Proof.
  unfold buy_value, buy_orders, buy_rows, logged_row, stop_order, buy_reply,
    buy_sized, buy_volume, usd_at, btc_at, balance_values, accepted.
  run_all; try rewrite app_nil_r; repeat split; reflexivity || discriminate.
Qed.

Lemma sell_flow_summary (p l : Q) (st : state) :
  let out := sell_flow w self p l st in
  value out = Val tt /\
  orders_in (events out) = sell_orders w self (requests st) /\
  csv (final out) = csv st ++ sell_rows w self (requests st) p l.
Proof.
  unfold sell_orders, sell_rows, logged_row, sell_reply, sell_sized,
    sell_volume, usd_at, btc_at, balance_values, accepted.
  run_all; try rewrite app_nil_r; repeat split; reflexivity || discriminate.
Qed.

Lemma orders_in_app (xs ys : list event) :
  orders_in (xs ++ ys) = orders_in xs ++ orders_in ys.
Proof.
  induction xs as [| e xs IH]; [reflexivity |].
  destruct e; cbn [app orders_in]; rewrite IH; reflexivity.
Qed.

Lemma forecasts_in_app (xs ys : list event) :
  forecasts_in (xs ++ ys) = forecasts_in xs ++ forecasts_in ys.
Proof.
  induction xs as [| e xs IH]; [reflexivity |].
  destruct e; cbn [app forecasts_in]; rewrite IH; reflexivity.
Qed.

Lemma buy_flow_no_forecast (p l : Q) (st : state) :
  forecasts_in (events (buy_flow w self p l st)) = [].
Proof. run_all; reflexivity. Qed.

Lemma sell_flow_no_forecast (p l : Q) (st : state) :
  forecasts_in (events (sell_flow w self p l st)) = [].
Proof. run_all; reflexivity. Qed.

Lemma cycle_fetch_failed (st : state) :
  fetch_failed w self (requests st) = true ->
  cycle w self st =
  mkOutcome (Val Return) (after_fetch st)
    [OHLC (pair self) (ohlc_reply w (requests st) (pair self));
     Print (ErrorFetchingOHLC (error (ohlc_reply w (requests st) (pair self))));
     Print NoDataFetched].
Proof.
  unfold fetch_failed, after_fetch. intros H.
  cbv beta iota zeta delta
    [cycle fetch_data bind ret request print emit]. rewrite H. reflexivity.
Qed.

Lemma cycle_no_bar (st : state) :
  fetch_failed w self (requests st) = false ->
  Py.last_item (window w self (requests st)) = None ->
  cycle w self st =
  mkOutcome (Exc IndexError) (after_fetch st)
    [OHLC (pair self) (ohlc_reply w (requests st) (pair self));
     Forecast (map b_close (window w self (requests st)))].
Proof.
  unfold fetch_failed, after_fetch, window, history. intros H H0.
  cbv beta iota zeta delta
    [cycle fetch_data calculate_arima bind ret raise request print emit].
  rewrite H. cbv beta iota zeta. rewrite H0. reflexivity.
Qed.

Lemma cycle_flow (st : state) (d : bar) :
  fetch_failed w self (requests st) = false ->
  Py.last_item (window w self (requests st)) = Some d ->
  let p := forecast_at w self (requests st) in
  let l := b_close d in
  let head :=
    [OHLC (pair self) (ohlc_reply w (requests st) (pair self));
     Forecast (map b_close (window w self (requests st)));
     Print (LastClosePredictedDifference l p (Qabs (p - l)))] in
  let out := flow_of w self p l (after_fetch st) in
  cycle w self st =
  match value out with
  | Val _ =>
      mkOutcome (Val Continue) (final out)
        (head ++ events out ++ [Print WaitingForNextCycle; Sleep (60 * 60)])
  | Exc e => mkOutcome (Exc e) (final out) (head ++ events out)
  end.
Proof.
  unfold fetch_failed, after_fetch, forecast_at, window, history, flow_of.
  intros H H0.
  cbv beta iota zeta delta
    [cycle fetch_data calculate_arima bind ret raise request print emit].
  rewrite H. cbv beta iota zeta. rewrite H0.
  cbv beta iota zeta.
  destruct (classify _ _).
  - match goal with
    | |- context [buy_flow ?a ?b ?c ?d ?e] =>
        destruct (buy_flow a b c d e) as [[[] | e'] st' evs]
    end; reflexivity.
  - match goal with
    | |- context [sell_flow ?a ?b ?c ?d ?e] =>
        destruct (sell_flow a b c d e) as [[[] | e'] st' evs]
    end; reflexivity.
  - reflexivity.
Qed.

Lemma flow_summary (p l : Q) (st : state) :
  let out := flow_of w self p l st in
  forecasts_in (events out) = [] /\
  orders_in (events out) =
    match classify p l with
    | BUY => buy_orders w self (requests st) l
    | SELL => sell_orders w self (requests st)
    | HOLD => []
    end /\
  csv (final out) = csv st ++
    match classify p l with
    | BUY => buy_rows w self (requests st) p l
    | SELL => sell_rows w self (requests st) p l
    | HOLD => []
    end.
Proof.
  unfold flow_of. destruct (classify p l).
  - split; [apply buy_flow_no_forecast |].
    destruct (buy_flow_summary p l st) as (_ & Ho & Hc). now split.
  - split; [apply sell_flow_no_forecast |].
    destruct (sell_flow_summary p l st) as (_ & Ho & Hc). now split.
  - cbn. now rewrite app_nil_r.
Qed.

Lemma cycle_summary (st : state) :
  let out := cycle w self st in
  forecasts_in (events out) = cycle_forecasts w self (requests st) /\
  orders_in (events out) = cycle_orders w self (requests st) /\
  csv (final out) = csv st ++ cycle_rows w self (requests st).
Proof.
  unfold cycle_forecasts, cycle_orders, cycle_rows.
  destruct (fetch_failed w self (requests st)) eqn:Hf.
  - rewrite (cycle_fetch_failed st Hf). cbn. now rewrite app_nil_r.
  - destruct (Py.last_item (window w self (requests st))) as [d |] eqn:Hd.
    + rewrite (cycle_flow st d Hf Hd).
      destruct (flow_summary (forecast_at w self (requests st)) (b_close d)
                  (after_fetch st)) as (Hn & Ho & Hc).
      cbn [after_fetch requests csv] in Ho, Hc.
      destruct (value (flow_of w self _ _ _));
        cbn [events final app forecasts_in orders_in];
        rewrite ?forecasts_in_app, ?orders_in_app, Hn, Ho, Hc;
        cbn [forecasts_in orders_in app]; rewrite ?app_nil_r; auto.
    + rewrite (cycle_no_bar st Hf Hd). cbn. now rewrite app_nil_r.
Qed.

End Flows.

(** ** Rounding to one decimal *)


(** ** Powers of two *)







(** ** Rounding to an integer *)







(** ** The binade of a number *)

Lemma Qabs_zero (x : Q) : Qabs x == 0 -> x == 0.
Proof.
  intros H. destruct (Qabs_Qle_condition x 0) as [H1 _].
  assert (H0 : Qabs x <= 0) by lra. apply H1 in H0. lra.
Qed.




(** ** Rounding to binary64 *)














(** ** C2: buy sizing *)





(** ** C3: sell sizing *)



(** ** C7: the stop price *)




(** At a last close of 100.5 the product is the float just above 90.45 and
    the stop price is 90.5. *)
Example stop_price_at_100_5 :
  fmul (F64.rnd (1005 # 10)) (fsub 1 (stop_loss_pct default_bot))
  == (6364852910869709 # 70368744177664) /\
  (9045 # 100) < fmul (F64.rnd (1005 # 10)) (fsub 1 (stop_loss_pct default_bot))
  /\
  round_1 (fmul (F64.rnd (1005 # 10)) (fsub 1 (stop_loss_pct default_bot)))
  == 905 # 10.
Proof. vm_compute. repeat split. Qed.

(** ** C10: the stop-loss covers the entry *)

(** C10.  In every cycle, an accepted market buy is followed by exactly one
    more order, a stop-loss sell whose volume is the volume of that buy. *)
Theorem stop_loss_covers_entry (w : world) (self : KrakenBot) (st : state) :
  forall o r,
    In (o, r) (orders_in (events (cycle w self st))) ->
    o_type o = buy -> o_ordertype o = market -> accepted r = true ->
    exists s rs,
      orders_in (events (cycle w self st)) = [(o, r); (s, rs)] /\
      o_ordertype s = stop_loss /\ o_type s = sell /\
      o_volume s = o_volume o.
Proof.
  intros o r.
  destruct (cycle_summary w self st) as (_ & Ho & _). rewrite Ho.
  unfold cycle_orders.
  destruct (fetch_failed _ _ _); [intros [] |].
  destruct (Py.last_item _) as [d |]; [| intros []].
  destruct (classify _ _); [| | intros []].
  - unfold buy_orders. destruct (buy_sized _ _ _ _); [| intros []].
    destruct (accepted (buy_reply _ _ _ _)) eqn:Ha; cbn [In];
      intros H Hb Ht Hr.
    + destruct H as [H | [H | []]]; inversion H; subst o r.
      * do 2 eexists. split; [reflexivity |]. now repeat split.
      * discriminate Ht.
    + destruct H as [H | []]. inversion H; subst o r. congruence.
  - unfold sell_orders. destruct (sell_sized _ _ _); [| intros []].
    cbn [In]. intros [H | []] Hb. inversion H; subst o. discriminate Hb.
Qed.

Lemma stop_loss_covers_entry_witness :
  exists s rs,
    orders_in (events (cycle (calm_world (wallet 50 2) 120) default_bot
                         init_state))
    = [(market_order default_bot buy
          (Py.min (F64.rnd (33 / 100)) (F64.rnd (50 / 100))),
        ok txid); (s, rs)] /\
    o_ordertype s = stop_loss /\ o_type s = sell /\
    o_volume s = Py.min (F64.rnd (33 / 100)) (F64.rnd (50 / 100)).
Proof.
  apply (stop_loss_covers_entry (calm_world (wallet 50 2) 120) default_bot
           init_state
           (market_order default_bot buy
              (Py.min (F64.rnd (33 / 100)) (F64.rnd (50 / 100))))
           (ok txid)).
  - vm_compute. left. reflexivity.
  - reflexivity.
  - reflexivity.
  - reflexivity.
Defined.

(** ** C4: one row per accepted primary order *)

(** C4.  In every cycle the rows appended to the CSV file are none or one;
    one row is appended if and only if a market order of the cycle was
    accepted by the exchange (so none on HOLD, on suppressed sizing or on a
    rejected market order); and whenever a stop-loss order was sent,
    accepted or not, the row of the buy is appended. *)
Theorem record_iff_primary_accepted (w : world) (self : KrakenBot)
  (st : state) :
  let out := cycle w self st in
  exists rows,
    csv (final out) = csv st ++ rows /\
    (rows = [] \/ exists row, rows = [row]) /\
    ((exists row, rows = [row]) <->
     (exists o r, In (o, r) (orders_in (events out)) /\
                  o_ordertype o = market /\ accepted r = true)) /\
    (forall o r, In (o, r) (orders_in (events out)) ->
       o_ordertype o = stop_loss ->
       exists row, rows = [row] /\ r_action row = buy).
Proof.
  intros out. exists (cycle_rows w self (requests st)).
  destruct (cycle_summary w self st) as (_ & Ho & Hc).
  fold out in Ho, Hc. rewrite Ho. split; [exact Hc |].
  unfold cycle_rows, cycle_orders.
  assert (Hnone :
    (@nil row = [] \/ exists x : row, [] = [x]) /\
    ((exists x : row, [] = [x]) <->
     (exists o r, In (o, r) [] /\ o_ordertype o = market /\ accepted r = true))
    /\ (forall (o : order) (r : reply order_result), In (o, r) [] ->
        o_ordertype o = stop_loss ->
        exists x : row, [] = [x] /\ r_action x = buy)).
  { split; [now left |]. split.
    - split; [intros [row H]; discriminate H | intros (o & r & [] & _)].
    - intros o r []. }
  destruct (fetch_failed _ _ _); [exact Hnone |].
  destruct (Py.last_item _) as [d |]; [| exact Hnone].
  destruct (classify _ _); [| | exact Hnone].
  - unfold buy_orders, buy_rows.
    destruct (buy_sized _ _ _ _); [| exact Hnone].
    destruct (accepted (buy_reply _ _ _ _)) eqn:Ha; cbn [andb].
    + split; [right; eexists; reflexivity |]. split.
      * split; [| intros _; eexists; reflexivity].
        intros _. do 2 eexists. split; [left; reflexivity |]. now split.
      * intros o r _ _. eexists. split; reflexivity.
    + split; [now left |]. split.
      * split; [intros [row H]; discriminate H |].
        intros (o & r & [H | []] & _ & Hr). inversion H; subst o r.
        congruence.
      * intros o r [H | []] Ht. inversion H; subst o. discriminate Ht.
  - unfold sell_orders, sell_rows.
    destruct (sell_sized _ _ _); [| exact Hnone].
    destruct (accepted (sell_reply _ _ _)) eqn:Ha; cbn [andb].
    + split; [right; eexists; reflexivity |]. split.
      * split; [| intros _; eexists; reflexivity].
        intros _. do 2 eexists. split; [left; reflexivity |]. now split.
      * intros o r [H | []] Ht. inversion H; subst o. discriminate Ht.
    + split; [now left |]. split.
      * split; [intros [row H]; discriminate H |].
        intros (o & r & [H | []] & _ & Hr). inversion H; subst o r.
        congruence.
      * intros o r [H | []] Ht. inversion H; subst o. discriminate Ht.
Qed.

(** The buy is accepted and the stop-loss refused, the row is written. *)
Example unprotected_buy_is_recorded :
  let out := cycle (no_stop_world (wallet 50 2) 120) default_bot init_state in
  map (fun p => (o_ordertype (fst p), accepted (snd p)))
      (orders_in (events out))
  = [(market, true); (stop_loss, false)] /\
  map r_action (csv (final out)) = [buy].
Proof. vm_compute. split; reflexivity. Qed.

(** The market order is refused, nothing is written. *)
Example rejected_buy_is_not_recorded :
  let out := cycle (closed_world (wallet 50 2) 120) default_bot init_state in
  map (fun p => (o_ordertype (fst p), accepted (snd p)))
      (orders_in (events out))
  = [(market, false)] /\
  csv (final out) = [].
Proof. vm_compute. split; reflexivity. Qed.

(** ** C5: the recorded difference *)

Lemma classify_BUY (p l : Q) :
  classify p l = BUY -> l < p /\ threshold < Qabs (p - l).
Proof.
  unfold classify.
  destruct (Py.gt (Qabs (p - l)) threshold) eqn:Ht; [| discriminate].
  destruct (Py.gt p l) eqn:Hd.
  - intros _. apply gt_true in Ht, Hd. now split.
  - destruct (Py.lt p l); discriminate.
Qed.






(** ** C6: the window handed to the forecaster *)

Lemma slice_from_last {A : Type} (L : Z) (l : list A) :
  (0 < L)%Z ->
  Py.slice_from (- L) l = skipn (length l - Z.to_nat L) l.
Proof.
  intros HL. unfold Py.slice_from.
  assert (E : (- L <? 0)%Z = true) by (apply Z.ltb_lt; lia).
  rewrite E. f_equal. lia.
Qed.

Lemma Forall_skipn' {A : Type} (P : A -> Prop) (k : nat) (l : list A) :
  Forall P l -> Forall P (skipn k l).
Proof.
  intros H. rewrite <- (firstn_skipn k l) in H.
  apply Forall_app in H. apply H.
Qed.

(** C6, as the code has it.  For a positive look-back L, the window handed
    to the forecaster is the closes of the last L bars of the history the
    exchange returned: its length is min(L, n) for a history of n bars, so
    exactly L when the history has at least L bars; its prices are those of
    the exchange, positive when the exchange's are. *)
Theorem window_is_last_bars (w : world) (self : KrakenBot) (st : state) :
  (0 < lookback self)%Z ->
  forall closes,
    In closes (forecasts_in (events (cycle w self st))) ->
    let bars := result (ohlc_reply w (requests st) (pair self)) in
    closes
    = map b_close (skipn (length bars - Z.to_nat (lookback self)) bars) /\
    length closes = Nat.min (Z.to_nat (lookback self)) (length bars) /\
    ((Z.to_nat (lookback self) <= length bars)%nat ->
     Z.of_nat (length closes) = lookback self) /\
    (Forall (fun b => 0 < b_close b) bars -> Forall (fun c => 0 < c) closes).
Proof.
  intros HL closes.
  destruct (cycle_summary w self st) as (Hf & _ & _). rewrite Hf.
  unfold cycle_forecasts, window, history.
  destruct (fetch_failed _ _ _); [intros [] |].
  intros H. destruct H as [<- | []].
  set (bars := result (ohlc_reply w (requests st) (pair self))).
  rewrite (slice_from_last _ bars HL).
  split; [reflexivity |].
  rewrite length_map, length_skipn.
  split; [lia |]. split; [lia |].
  intros H. apply Forall_map. apply Forall_skipn'. exact H.
Qed.

Lemma window_is_last_bars_witness :
  (0 < lookback default_bot)%Z /\
  forall closes,
    In closes
       (forecasts_in
          (events (cycle (young_world 120) default_bot init_state))) ->
    length closes = Nat.min (Z.to_nat 50) 30.
Proof.
  split; [reflexivity |].
  intros closes H.
  exact (proj1 (proj2
           (window_is_last_bars (young_world 120) default_bot init_state
              eq_refl closes H))).
Defined.

(** C6 as stated fails: the exchange returns thirty bars, the look-back is
    fifty, and the forecaster is handed a window of thirty prices. *)
Lemma window_shorter_than_lookback :
  exists closes,
    In closes
       (forecasts_in
          (events (cycle (young_world 120) default_bot init_state))) /\
    length closes = 30%nat /\
    Z.of_nat (length closes) <> lookback default_bot.
Proof.
  eexists. split; [vm_compute; left; reflexivity |].
  split; [reflexivity |]. vm_compute. discriminate.
Qed.

(** ** C8: a failed balance query *)

Lemma fails_closed_app (xs ys : list event) :
  fails_closed xs -> fails_closed ys -> orders_in ys = [] ->
  fails_closed (xs ++ ys).
Proof.
  intros Hx Hy Hn. induction xs as [| e xs IH]; [exact Hy |].
  destruct e; cbn [app fails_closed] in *; auto.
  destruct Hx as [H1 H2]. split; [| auto].
  intros Hr. rewrite orders_in_app, (H1 Hr), Hn. reflexivity.
Qed.

Lemma buy_flow_fails_closed (w : world) (self : KrakenBot) (p l : Q)
  (st : state) :
  fails_closed (events (buy_flow w self p l st)).
Proof.
  run_all; cbn [fails_closed orders_in];
    try match goal with
        | H : Py.gt 0 _ = true |- _ => vm_compute in H; discriminate H
        end;
    intuition congruence.
Qed.

Lemma sell_flow_fails_closed (w : world) (self : KrakenBot) (p l : Q)
  (st : state) :
  fails_closed (events (sell_flow w self p l st)).
Proof.
  run_all; cbn [fails_closed orders_in];
    try match goal with
        | H : Py.gt 0 _ = true |- _ => vm_compute in H; discriminate H
        end;
    intuition congruence.
Qed.

Lemma cycle_fails_closed (w : world) (self : KrakenBot) (st : state) :
  fails_closed (events (cycle w self st)).
Proof.
  destruct (fetch_failed w self (requests st)) eqn:Hf.
  - rewrite (cycle_fetch_failed w self st Hf). exact I.
  - destruct (Py.last_item (window w self (requests st))) as [d |] eqn:Hd.
    + rewrite (cycle_flow w self st d Hf Hd).
      assert (H : fails_closed
                    (events (flow_of w self (forecast_at w self (requests st))
                               (b_close d) (after_fetch st)))).
      { unfold flow_of. destruct (classify _ _).
        - apply buy_flow_fails_closed.
        - apply sell_flow_fails_closed.
        - exact I. }
      destruct (value (flow_of w self _ _ _));
        cbn [events app fails_closed].
      * apply fails_closed_app; [exact H | exact I | reflexivity].
      * exact H.
    + rewrite (cycle_no_bar w self st Hf Hd). exact I.
Qed.

(** C8.  When the balance query fails, [get_balance] returns zero for both
    balances; neither flow then sends an order; a cycle whose balance query
    before sizing fails sends no order and writes no row; and in every cycle
    no order follows a failed balance query. *)
Theorem balance_failure_fails_closed (w : world) (self : KrakenBot)
  (st : state) :
  (Py.truthy (error (balance_reply w (requests st))) = true ->
   value (get_balance w st) = Val (0, 0) /\
   forall p l,
     orders_in (events (buy_flow w self p l st)) = [] /\
     orders_in (events (sell_flow w self p l st)) = []) /\
  (Py.truthy (error (balance_reply w (S (requests st)))) = true ->
   orders_in (events (cycle w self st)) = [] /\
   csv (final (cycle w self st)) = csv st) /\
  fails_closed (events (cycle w self st)).
Proof.
  assert (Hz : forall n, Py.truthy (error (balance_reply w n)) = true ->
               usd_at w n = 0 /\ btc_at w n = 0).
  { intros n H. unfold usd_at, btc_at, balance_values. rewrite H. now split. }
  assert (Hb : forall n l, Py.truthy (error (balance_reply w n)) = true ->
               buy_sized w self n l = false).
  { intros n l H. unfold buy_sized. rewrite (proj1 (Hz n H)). reflexivity. }
  assert (Hs : forall n, Py.truthy (error (balance_reply w n)) = true ->
               sell_sized w self n = false).
  { intros n H. unfold sell_sized. rewrite (proj2 (Hz n H)). reflexivity. }
  split; [| split].
  - intros H. split.
    + rewrite get_balance_value. destruct (Hz _ H) as [-> ->]. reflexivity.
    + intros p l.
      destruct (buy_flow_summary w self p l st) as (_ & -> & _).
      destruct (sell_flow_summary w self p l st) as (_ & -> & _).
      unfold buy_orders, sell_orders. now rewrite Hb, Hs.
  - intros H. destruct (cycle_summary w self st) as (_ & -> & ->).
    unfold cycle_orders, cycle_rows, buy_orders, buy_rows, sell_orders,
      sell_rows.
    rewrite (Hs _ H).
    destruct (fetch_failed _ _ _); [now rewrite app_nil_r |].
    destruct (Py.last_item _); [| now rewrite app_nil_r].
    rewrite (Hb _ (b_close b) H).
    destruct (classify _ _); now rewrite app_nil_r.
  - apply cycle_fails_closed.
Qed.

Lemma balance_failure_fails_closed_witness :
  orders_in
    (events (cycle (calm_world (failed {| ZUSD := Some 50; XXBT := Some 2 |})
                      120) default_bot init_state)) = [] /\
  csv (final (cycle (calm_world (failed {| ZUSD := Some 50; XXBT := Some 2 |})
                       120) default_bot init_state)) = csv init_state.
Proof.
  apply (proj1 (proj2
           (balance_failure_fails_closed
              (calm_world (failed {| ZUSD := Some 50; XXBT := Some 2 |}) 120)
              default_bot init_state))).
  reflexivity.
Defined.

(** ** C9: a failed price-history fetch *)

Lemma run_add (w : world) (self : KrakenBot) (k m : nat) :
  forall st,
    value (run w self k st) = Val StillRunning ->
    run w self (k + m) st =
    mkOutcome (value (run w self m (final (run w self k st))))
      (final (run w self m (final (run w self k st))))
      (events (run w self k st)
       ++ events (run w self m (final (run w self k st)))).
Proof.
  induction k as [| k IH]; intros st Hk.
  - cbn. now destruct (run w self m st).
  - cbn [Nat.add run] in *. unfold bind in *.
    destruct (cycle w self st) as [[[] | e] st1 evs]; cbn in Hk;
      try discriminate Hk.
    specialize (IH st1).
    destruct (run w self k st1) as [v st2 evs2] eqn:Ek.
    cbn [value final events] in *. subst v.
    rewrite IH by reflexivity. cbn [value final events].
    now rewrite app_assoc.
Qed.

Lemma run_fetch_failed (w : world) (self : KrakenBot) (fuel : nat)
  (st : state) :
  fetch_failed w self (requests st) = true ->
  run w self (S fuel) st =
  mkOutcome (Val Returned) (after_fetch st)
    [OHLC (pair self) (ohlc_reply w (requests st) (pair self));
     Print (ErrorFetchingOHLC (error (ohlc_reply w (requests st) (pair self))));
     Print NoDataFetched].
Proof.
  intros H. cbn [run]. unfold bind. rewrite (cycle_fetch_failed w self st H).
  reflexivity.
Qed.

(** C9.  When the price-history fetch of a cycle fails, after any number of
    completed cycles, [run] returns, however many more cycles it was given:
    after the failed request the bot only prints the error and the exit
    message; it makes no forecast, sends no order, sends no further request
    and writes no row. *)
Theorem fetch_failure_is_fatal (w : world) (self : KrakenBot) (st : state)
  (completed more : nat) :
  let before := run w self completed st in
  let out := run w self (completed + S more) st in
  value before = Val StillRunning ->
  Py.truthy (error (ohlc_reply w (requests (final before)) (pair self))) = true ->
  value out = Val Returned /\
  events out =
    events before ++
    [OHLC (pair self) (ohlc_reply w (requests (final before)) (pair self));
     Print (ErrorFetchingOHLC
              (error (ohlc_reply w (requests (final before)) (pair self))));
     Print NoDataFetched] /\
  forecasts_in (events out) = forecasts_in (events before) /\
  orders_in (events out) = orders_in (events before) /\
  csv (final out) = csv (final before) /\
  requests (final out) = S (requests (final before)).
Proof.
  intros before out Hk Hf. unfold out.
  rewrite (run_add w self completed (S more) st Hk). fold before.
  rewrite (run_fetch_failed w self more (final before) Hf).
  cbn [value final events after_fetch csv requests].
  rewrite forecasts_in_app, orders_in_app. cbn [forecasts_in orders_in].
  rewrite !app_nil_r. repeat split; reflexivity.
Qed.

Lemma fetch_failure_is_fatal_witness :
  value (run fading_world default_bot 1 init_state) = Val StillRunning /\
  value (run fading_world default_bot (1 + 4) init_state) = Val Returned /\
  forecasts_in (events (run fading_world default_bot (1 + 4) init_state))
  = forecasts_in (events (run fading_world default_bot 1 init_state)) /\
  csv (final (run fading_world default_bot (1 + 4) init_state)) = [] /\
  requests (final (run fading_world default_bot (1 + 4) init_state)) = 2%nat.
Proof.
  split; [reflexivity |].
  destruct (fetch_failure_is_fatal fading_world default_bot init_state 1 3
              eq_refl eq_refl) as (Hv & _ & Hf & _ & Hc & Hr).
  split; [exact Hv |]. split; [exact Hf |]. split; [exact Hc | exact Hr].
Defined.

(** ** The scenarios of the specification *)

(** last_close = 100, forecast = 120, usd = 50, max_usd_per_order = 33: the
    market buy has volume 0.33 (the float), the stop-loss is at 90.0, the
    row records an expenditure of 33. *)
Example scenario_buy :
  let out := cycle (calm_world (wallet 50 2) 120) default_bot init_state in
  classify 120 100 = BUY /\
  map (fun p => (o_type (fst p), o_ordertype (fst p),
                 Qred (o_volume (fst p)), option_map Qred (o_price (fst p))))
      (orders_in (events out))
  = [(buy, market, F64.rnd (33 # 100), None);
     (sell, stop_loss, F64.rnd (33 # 100), Some 90)] /\
  map (fun x => (r_action x, Qred (r_expenditure x), Qred (r_profit x)))
      (csv (final out))
  = [(buy, 33, 0)].
Proof. vm_compute. repeat split. Qed.

(** last_close = 100, forecast = 108: HOLD, no order, no row. *)
Example scenario_hold :
  let out := cycle (calm_world (wallet 50 2) 108) default_bot init_state in
  classify 108 100 = HOLD /\
  orders_in (events out) = [] /\ csv (final out) = [].
Proof. vm_compute. repeat split. Qed.

(** last_close = 100, forecast = 80, btc = 2, sell_percentage = 0.25: the
    market sell has volume 0.5, the row records a profit of 50. *)
Example scenario_sell :
  let out := cycle (calm_world (wallet 50 2) 80) default_bot init_state in
  classify 80 100 = SELL /\
  map (fun p => (o_type (fst p), o_ordertype (fst p),
                 Qred (o_volume (fst p))))
      (orders_in (events out))
  = [(sell, market, 1 # 2)] /\
  map (fun x => (r_action x, Qred (r_expenditure x), Qred (r_profit x)))
      (csv (final out))
  = [(sell, 0, 50)].
Proof. vm_compute. repeat split. Qed.


(** * More of the program *)

(** ** What the flows leave behind *)

Lemma requests_in_app (xs ys : list event) :
  requests_in (xs ++ ys) = (requests_in xs + requests_in ys)%nat.
Proof.
  induction xs as [| e xs IH]; [reflexivity |].
  destruct e; cbn [app requests_in]; rewrite IH; reflexivity.
Qed.

Lemma sleeps_in_app (xs ys : list event) :
  sleeps_in (xs ++ ys) = sleeps_in xs ++ sleeps_in ys.
Proof.
  induction xs as [| e xs IH]; [reflexivity |].
  destruct e; cbn [app sleeps_in]; rewrite IH; reflexivity.
Qed.

Lemma balances_in_app (xs ys : list event) :
  balances_in (xs ++ ys) = balances_in xs ++ balances_in ys.
Proof.
  induction xs as [| e xs IH]; [reflexivity |].
  destruct e; cbn [app balances_in]; rewrite IH; reflexivity.
Qed.

Lemma orders_guarded_app (xs ys : list event) :
  forall sized,
    orders_guarded sized xs = true -> orders_in ys = [] ->
    balances_in ys = [] ->
    orders_guarded sized (xs ++ ys) = true.
Proof.
  induction xs as [| e xs IH]; intros sized Hx Hy Hb.
  - cbn [app]. clear Hx. revert sized.
    induction ys as [| e ys IH]; intros sized; [reflexivity |].
    destruct e; cbn [orders_in balances_in orders_guarded] in *;
      try discriminate; auto.
  - destruct e; cbn [app orders_guarded] in *; auto.
    apply andb_true_iff in Hx. destruct Hx as [-> Hx]. cbn [andb]. auto.
Qed.

Ltac step_more :=
  cbn [requests_in sleeps_in balances_in orders_guarded negb andb
       final requests csv usd_balance btc_balance].

Ltac zero_balance :=
  try match goal with
      | H : Py.gt 0 _ = true |- _ => vm_compute in H; discriminate H
      end.

(** The buy flow: its requests, its sleeps, and the order of its orders
    and balance queries. *)
Lemma buy_flow_trace (w : world) (self : KrakenBot) (p l : Q) (st : state) :
  let out := buy_flow w self p l st in
  requests (final out) = (requests st + requests_in (events out))%nat /\
  (1 <= requests_in (events out) <= 4)%nat /\
  sleeps_in (events out) = [] /\
  orders_guarded false (events out) = true.
Proof.
  run_all; step_more; zero_balance;
    repeat match goal with
           | H : ?c = _ |- context [?c] => rewrite H
           end; cbn [negb andb orders_guarded];
    repeat split; reflexivity || lia.
Qed.

Lemma sell_flow_trace (w : world) (self : KrakenBot) (p l : Q) (st : state) :
  let out := sell_flow w self p l st in
  requests (final out) = (requests st + requests_in (events out))%nat /\
  (1 <= requests_in (events out) <= 3)%nat /\
  sleeps_in (events out) = [] /\
  orders_guarded false (events out) = true.
Proof.
  run_all; step_more; zero_balance;
    repeat match goal with
           | H : ?c = _ |- context [?c] => rewrite H
           end; cbn [negb andb orders_guarded];
    repeat split; reflexivity || lia.
Qed.

Lemma buy_flow_balances (w : world) (self : KrakenBot) (p l : Q)
  (st : state) :
  let out := buy_flow w self p l st in
  let n := requests st in
  let logged := buy_sized w self n l && accepted (buy_reply w self n l) in
  balances_in (events out) =
    balance_reply w n
    :: (if logged then [balance_reply w (S (S (S n)))] else []) /\
  usd_balance (final out) =
    (if logged then usd_at w (S (S (S n))) else usd_balance st) /\
  btc_balance (final out) =
    (if logged then btc_at w (S (S (S n))) else btc_balance st).
Proof.
  unfold buy_reply, buy_sized, buy_volume, usd_at, btc_at, balance_values,
    accepted.
  run_all; step_more; repeat split; reflexivity || discriminate.
Qed.

Lemma sell_flow_balances (w : world) (self : KrakenBot) (p l : Q)
  (st : state) :
  let out := sell_flow w self p l st in
  let n := requests st in
  let logged := sell_sized w self n && accepted (sell_reply w self n) in
  balances_in (events out) =
    balance_reply w n :: (if logged then [balance_reply w (S (S n))] else [])
  /\
  usd_balance (final out) =
    (if logged then usd_at w (S (S n)) else usd_balance st) /\
  btc_balance (final out) =
    (if logged then btc_at w (S (S n)) else btc_balance st).
Proof.
  unfold sell_reply, sell_sized, sell_volume, usd_at, btc_at, balance_values,
    accepted.
  run_all; step_more; repeat split; reflexivity || discriminate.
Qed.

(** ** Reading the balance *)

(** X2.  [get_balance] sends one balance query and nothing else, and changes
    neither the attributes nor the file.  On a reply without error it
    returns the two entries of the reply, a missing entry counting as 0; on
    an error it prints the error and returns zero twice. *)
Theorem get_balance_reads_the_reply (w : world) (st : state) :
  let r := balance_reply w (requests st) in
  let out := get_balance w st in
  requests_in (events out) = 1%nat /\
  balances_in (events out) = [r] /\
  orders_in (events out) = [] /\
  csv (final out) = csv st /\
  usd_balance (final out) = usd_balance st /\
  btc_balance (final out) = btc_balance st /\
  (error r = [] ->
   events out = [Balance r] /\
   value out =
     Val (match ZUSD (result r) with Some x => x | None => 0 end,
          match XXBT (result r) with Some x => x | None => 0 end)) /\
  (error r <> [] ->
   events out = [Balance r; Print (ErrorFetchingBalance (error r))] /\
   value out = Val (0, 0)).
Proof.
  intros r out. unfold out, r.
  cbv beta iota zeta delta [get_balance bind request ret print emit].
  destruct (error (balance_reply w (requests st))) as [| e es] eqn:E;
    cbn [Py.truthy app]; cbv beta iota zeta; cbn [app];
    repeat split; try reflexivity; try congruence.
  all: intros H; try discriminate H; exfalso; apply H; reflexivity.
Qed.

(** ** The signal, exactly *)


(** ** A sell is partial *)



(** ** The shape of a cycle *)

Lemma flow_trace (w : world) (self : KrakenBot) (p l : Q) (st : state) :
  let out := flow_of w self p l st in
  requests (final out) = (requests st + requests_in (events out))%nat /\
  (requests_in (events out) <= 4)%nat /\
  sleeps_in (events out) = [] /\
  orders_guarded false (events out) = true.
Proof.
  unfold flow_of. destruct (classify p l).
  - destruct (buy_flow_trace w self p l st) as (H1 & H2 & H3 & H4).
    repeat split; auto; lia.
  - destruct (sell_flow_trace w self p l st) as (H1 & H2 & H3 & H4).
    repeat split; auto; lia.
  - cbn. repeat split; lia.
Qed.

(** X7.  Every cycle starts with the price-history request and sends between one
    and five requests to the exchange, at most two of them balance queries
    and at most two of them orders. *)
Theorem cycle_request_budget (w : world) (self : KrakenBot) (st : state) :
  let out := cycle w self st in
  (exists evs,
     events out
     = OHLC (pair self) (ohlc_reply w (requests st) (pair self)) :: evs) /\
  (1 <= requests_in (events out) <= 5)%nat /\
  (length (balances_in (events out)) <= 2)%nat /\
  (length (orders_in (events out)) <= 2)%nat.
Proof.
  intros out. unfold out.
  destruct (cycle_summary w self st) as (_ & Ho & _). rewrite Ho.
  assert (Hord : (length (cycle_orders w self (requests st)) <= 2)%nat).
  { unfold cycle_orders, buy_orders, sell_orders.
    destruct (fetch_failed _ _ _); [cbn; lia |].
    destruct (Py.last_item _); [| cbn; lia].
    destruct (classify _ _); [| | cbn; lia].
    - destruct (buy_sized _ _ _ _); [| cbn; lia].
      destruct (accepted _); cbn; lia.
    - destruct (sell_sized _ _ _); cbn; lia. }
  destruct (fetch_failed w self (requests st)) eqn:Hf.
  - rewrite (cycle_fetch_failed w self st Hf). cbn.
    split; [eexists; reflexivity |]. repeat split; lia.
  - destruct (Py.last_item (window w self (requests st))) as [d |] eqn:Hd.
    + rewrite (cycle_flow w self st d Hf Hd).
      set (p := forecast_at w self (requests st)).
      destruct (flow_trace w self p (b_close d) (after_fetch st))
        as (_ & Hr & _ & _).
      assert (Hb : (length (balances_in
                              (events (flow_of w self p (b_close d)
                                         (after_fetch st)))) <= 2)%nat).
      { unfold flow_of. destruct (classify p (b_close d)).
        - destruct (buy_flow_balances w self p (b_close d) (after_fetch st))
            as (-> & _). destruct (_ && _); cbn; lia.
        - destruct (sell_flow_balances w self p (b_close d) (after_fetch st))
            as (-> & _). destruct (_ && _); cbn; lia.
        - cbn. lia. }
      destruct (value (flow_of w self p (b_close d) (after_fetch st)));
        cbn [events app];
        (split; [eexists; reflexivity |]);
        cbn [requests_in balances_in];
        rewrite ?requests_in_app, ?balances_in_app, ?length_app;
        cbn [requests_in balances_in length]; repeat split; lia.
    + rewrite (cycle_no_bar w self st Hf Hd). cbn.
      split; [eexists; reflexivity |]. repeat split; lia.
Qed.

Lemma cycle_flow_readings (w : world) (self : KrakenBot) (st : state)
  (d : bar) :
  fetch_failed w self (requests st) = false ->
  Py.last_item (window w self (requests st)) = Some d ->
  let flow := flow_of w self (forecast_at w self (requests st)) (b_close d)
                (after_fetch st) in
  final (cycle w self st) = final flow /\
  balances_in (events (cycle w self st)) = balances_in (events flow).
Proof.
  intros Hf Hd flow. rewrite (cycle_flow w self st d Hf Hd). fold flow.
  destruct (value flow); cbn [final events app balances_in];
    rewrite ?balances_in_app; cbn [balances_in]; rewrite ?app_nil_r;
    now split.
Qed.

Lemma sized_has_balance (w : world) (self : KrakenBot) (n : nat) :
  (forall l, buy_sized w self n l = true ->
             Py.truthy (error (balance_reply w n)) = false) /\
  (sell_sized w self n = true ->
   Py.truthy (error (balance_reply w n)) = false).
Proof.
  unfold buy_sized, sell_sized, usd_at, btc_at, balance_values.
  destruct (Py.truthy (error (balance_reply w n)));
    split; intros; try reflexivity; discriminate.
Qed.

(** X8.  In every cycle an order is sent only after a balance query of the same
    cycle, and the latest balance query before it was answered without
    error; a cycle that sends an order has received a balance without error
    as the reply to its first balance query. *)
Theorem orders_follow_a_good_balance (w : world) (self : KrakenBot)
  (st : state) :
  let evs := events (cycle w self st) in
  orders_guarded false evs = true /\
  (orders_in evs <> [] ->
   exists b rest,
     balances_in evs = b :: rest /\ Py.truthy (error b) = false).
Proof.
  intros evs. unfold evs.
  destruct (cycle_summary w self st) as (_ & Ho & _). rewrite Ho.
  unfold cycle_orders.
  destruct (fetch_failed w self (requests st)) eqn:Hf.
  { rewrite (cycle_fetch_failed w self st Hf).
    split; [reflexivity | intros H; now destruct H]. }
  destruct (Py.last_item (window w self (requests st))) as [d |] eqn:Hd.
  2:{ rewrite (cycle_no_bar w self st Hf Hd).
      split; [reflexivity | intros H; now destruct H]. }
  split.
  - rewrite (cycle_flow w self st d Hf Hd).
    destruct (flow_trace w self (forecast_at w self (requests st))
                (b_close d) (after_fetch st)) as (_ & _ & _ & Hg).
    destruct (value (flow_of w self _ _ _));
      cbn [events app orders_guarded].
    + apply orders_guarded_app; [exact Hg | reflexivity | reflexivity].
    + exact Hg.
  - destruct (cycle_flow_readings w self st d Hf Hd) as (_ & ->).
    destruct (sized_has_balance w self (S (requests st))) as [Hb Hs].
    unfold flow_of. destruct (classify _ _).
    + destruct (buy_flow_balances w self (forecast_at w self (requests st))
                  (b_close d) (after_fetch st)) as (-> & _).
      cbn [after_fetch requests]. unfold buy_orders.
      destruct (buy_sized w self (S (requests st)) (b_close d)) eqn:E;
        [| intros H; now destruct H].
      intros _. do 2 eexists. split; [reflexivity |]. now apply (Hb (b_close d)).
    + destruct (sell_flow_balances w self (forecast_at w self (requests st))
                  (b_close d) (after_fetch st)) as (-> & _).
      cbn [after_fetch requests]. unfold sell_orders.
      destruct (sell_sized w self (S (requests st))) eqn:E;
        [| intros H; now destruct H].
      intros _. do 2 eexists. split; [reflexivity |]. now apply Hs.
    + intros H. now destruct H.
Qed.

Lemma orders_follow_a_good_balance_witness :
  exists b rest,
    balances_in (events (cycle (calm_world (wallet 50 2) 120) default_bot
                           init_state)) = b :: rest /\
    Py.truthy (error b) = false.
Proof.
  apply (proj2 (orders_follow_a_good_balance (calm_world (wallet 50 2) 120)
                  default_bot init_state)).
  vm_compute. discriminate.
Defined.

(** X9.  A cycle that goes on to the next one ends by printing that it waits and
    sleeping 3600 seconds, and sleeps only then; a cycle that makes [run]
    return, or that raises, does not sleep. *)
Theorem cycle_ends_with_one_sleep (w : world) (self : KrakenBot)
  (st : state) :
  let out := cycle w self st in
  (value out = Val Continue ->
   exists evs,
     events out = evs ++ [Print WaitingForNextCycle; Sleep 3600] /\
     sleeps_in evs = []) /\
  (value out <> Val Continue -> sleeps_in (events out) = []).
Proof.
  intros out. unfold out.
  destruct (fetch_failed w self (requests st)) eqn:Hf.
  { rewrite (cycle_fetch_failed w self st Hf). cbn [value events].
    split; [discriminate | reflexivity]. }
  destruct (Py.last_item (window w self (requests st))) as [d |] eqn:Hd.
  2:{ rewrite (cycle_no_bar w self st Hf Hd). cbn [value events].
      split; [discriminate | reflexivity]. }
  rewrite (cycle_flow w self st d Hf Hd).
  destruct (flow_trace w self (forecast_at w self (requests st))
              (b_close d) (after_fetch st)) as (_ & _ & Hs & _).
  destruct (value (flow_of w self _ _ _)); cbn [value events].
  - split; [| intros H; now destruct H]. intros _.
    eexists. split.
    + rewrite app_assoc. reflexivity.
    + rewrite sleeps_in_app. cbn [sleeps_in]. rewrite Hs. reflexivity.
  - split; [discriminate |]. intros _.
    rewrite sleeps_in_app. cbn [sleeps_in]. exact Hs.
Qed.

Lemma cycle_ends_with_one_sleep_witness :
  exists evs,
    events (cycle (calm_world (wallet 50 2) 120) default_bot init_state)
    = evs ++ [Print WaitingForNextCycle; Sleep 3600] /\
    sleeps_in evs = [].
Proof.
  apply (proj1 (cycle_ends_with_one_sleep (calm_world (wallet 50 2) 120)
                  default_bot init_state)).
  reflexivity.
Defined.

(** ** What an order looks like *)

(** X10.  Every order a cycle sends is for the configured pair and has a volume
    above 0.0001; a market order has no price, a stop-loss order is a sell
    with a price.  The orders of a cycle are none, or one market order, or a
    market buy that was accepted followed by a stop-loss order of the same
    volume. *)
Theorem orders_are_well_formed (w : world) (self : KrakenBot) (st : state) :
  let os := orders_in (events (cycle w self st)) in
  (forall o r, In (o, r) os ->
     o_pair o = pair self /\ dust < o_volume o /\
     (o_ordertype o = market -> o_price o = None) /\
     (o_ordertype o = stop_loss ->
      o_type o = sell /\ exists s, o_price o = Some s)) /\
  (os = [] \/
   (exists o r, os = [(o, r)] /\ o_ordertype o = market) \/
   (exists o r s rs,
      os = [(o, r); (s, rs)] /\
      o_ordertype o = market /\ o_type o = buy /\ accepted r = true /\
      o_ordertype s = stop_loss /\ o_volume s = o_volume o)).
Proof.
  intros os. unfold os.
  destruct (cycle_summary w self st) as (_ & Ho & _). rewrite Ho.
  unfold cycle_orders.
  assert (Hnone :
    (forall (o : order) (r : reply order_result),
       In (o, r) (@nil (order * reply order_result)) ->
       o_pair o = pair self /\ dust < o_volume o /\
       (o_ordertype o = market -> o_price o = None) /\
       (o_ordertype o = stop_loss ->
        o_type o = sell /\ exists s, o_price o = Some s)) /\
    (@nil (order * reply order_result) = [] \/
     (exists (o : order) (r : reply order_result),
        [] = [(o, r)] /\ o_ordertype o = market) \/
     (exists (o : order) (r : reply order_result) (s : order)
             (rs : reply order_result),
        [] = [(o, r); (s, rs)] /\
        o_ordertype o = market /\ o_type o = buy /\ accepted r = true /\
        o_ordertype s = stop_loss /\ o_volume s = o_volume o))).
  { split; [intros o r [] | now left]. }
  destruct (fetch_failed _ _ _); [exact Hnone |].
  destruct (Py.last_item _) as [d |]; [| exact Hnone].
  destruct (classify _ _); [| | exact Hnone].
  - unfold buy_orders.
    destruct (buy_sized w self (S (requests st)) (b_close d)) eqn:Hs;
      [| exact Hnone].
    unfold buy_sized in Hs. apply andb_true_iff in Hs.
    destruct Hs as [_ Hv]. apply gt_true in Hv.
    destruct (accepted (buy_reply _ _ _ _)) eqn:Ha.
    + split.
      * intros o r [H | [H | []]]; inversion H; cbn.
        -- repeat split; auto; discriminate.
        -- repeat split; auto; try discriminate. eexists. reflexivity.
      * right. right. do 4 eexists. split; [reflexivity |].
        now repeat split.
    + split.
      * intros o r [H | []]; inversion H; cbn.
        repeat split; auto; discriminate.
      * right. left. do 2 eexists. now split.
  - unfold sell_orders.
    destruct (sell_sized w self (S (requests st))) eqn:Hs; [| exact Hnone].
    unfold sell_sized in Hs. apply andb_true_iff in Hs.
    destruct Hs as [_ Hv]. apply gt_true in Hv.
    split.
    + intros o r [H | []]; inversion H; cbn.
      repeat split; auto; discriminate.
    + right. left. do 2 eexists. now split.
Qed.

(** ** What is left in the object *)

(** X11.  After a cycle that wrote no row the two balance attributes are what
    they were.  After a cycle that wrote a row they are the balances of that
    row, which are those of the reply to the second balance query of the
    cycle: zero when that query failed. *)
Theorem attributes_follow_the_last_row (w : world) (self : KrakenBot)
  (st : state) :
  let out := cycle w self st in
  exists rows,
    csv (final out) = csv st ++ rows /\
    (rows = [] ->
     usd_balance (final out) = usd_balance st /\
     btc_balance (final out) = btc_balance st) /\
    (forall x, In x rows ->
       usd_balance (final out) = r_usd_balance x /\
       btc_balance (final out) = r_btc_balance x /\
       exists b1 b2,
         balances_in (events out) = [b1; b2] /\
         (r_usd_balance x, r_btc_balance x) = balance_values b2 /\
         (Py.truthy (error b2) = true ->
          r_usd_balance x = 0 /\ r_btc_balance x = 0)).
Proof.
  intros out. unfold out. exists (cycle_rows w self (requests st)).
  destruct (cycle_summary w self st) as (_ & _ & Hc).
  split; [exact Hc |]. clear Hc. unfold cycle_rows.
  assert (Hz : forall n, Py.truthy (error (balance_reply w n)) = true ->
               usd_at w n = 0 /\ btc_at w n = 0).
  { intros n H. unfold usd_at, btc_at, balance_values. rewrite H. now split. }
  assert (Hbv : forall n, (usd_at w n, btc_at w n)
                          = balance_values (balance_reply w n)).
  { intros n. unfold usd_at, btc_at. now destruct (balance_values _). }
  destruct (fetch_failed w self (requests st)) eqn:Hf.
  { rewrite (cycle_fetch_failed w self st Hf). cbn.
    split; [now split | intros x []]. }
  destruct (Py.last_item (window w self (requests st))) as [d |] eqn:Hd.
  2:{ rewrite (cycle_no_bar w self st Hf Hd). cbn.
      split; [now split | intros x []]. }
  destruct (cycle_flow_readings w self st d Hf Hd) as (-> & ->).
  unfold flow_of. destruct (classify _ _).
  - destruct (buy_flow_balances w self (forecast_at w self (requests st))
                (b_close d) (after_fetch st)) as (-> & -> & ->).
    cbn [after_fetch requests usd_balance btc_balance]. unfold buy_rows.
    destruct (_ && _).
    + split; [discriminate |]. intros x [<- | []]. cbn [logged_row
        r_usd_balance r_btc_balance].
      split; [reflexivity |]. split; [reflexivity |].
      do 2 eexists. split; [reflexivity |]. split; [apply Hbv | apply Hz].
    + split; [now split | intros x []].
  - destruct (sell_flow_balances w self (forecast_at w self (requests st))
                (b_close d) (after_fetch st)) as (-> & -> & ->).
    cbn [after_fetch requests usd_balance btc_balance]. unfold sell_rows.
    destruct (_ && _).
    + split; [discriminate |]. intros x [<- | []]. cbn [logged_row
        r_usd_balance r_btc_balance].
      split; [reflexivity |]. split; [reflexivity |].
      do 2 eexists. split; [reflexivity |]. split; [apply Hbv | apply Hz].
    + split; [now split | intros x []].
  - cbn. split; [now split | intros x []].
Qed.

(** ** A last close of zero *)

Lemma classify_BUY_iff (p l : Q) :
  classify p l = BUY <-> threshold < p - l.
Proof.
  split.
  - intros H. apply classify_BUY in H. destruct H as [Hd Ht].
    rewrite Qabs_pos in Ht by lra. exact Ht.
  - intros H. assert (Ht : 0 <= threshold) by (unfold threshold; lra).
    unfold classify.
    assert (E1 : Py.gt (Qabs (p - l)) threshold = true).
    { apply gt_true. rewrite Qabs_pos by lra. exact H. }
    assert (E2 : Py.gt p l = true) by (apply gt_true; lra).
    now rewrite E1, E2.
Qed.

Lemma flow_value (w : world) (self : KrakenBot) (p l : Q) (st : state) :
  value (flow_of w self p l st) =
  match classify p l with
  | BUY => buy_value w (requests st) l
  | _ => Val tt
  end.
Proof.
  unfold flow_of. destruct (classify p l).
  - now destruct (buy_flow_summary w self p l st) as (-> & _).
  - now destruct (sell_flow_summary w self p l st) as (-> & _).
  - reflexivity.
Qed.

Lemma run_raises (w : world) (self : KrakenBot) (fuel : nat) (st : state)
  (e : exn) :
  value (cycle w self st) = Exc e ->
  run w self (S fuel) st =
  mkOutcome (Exc e) (final (cycle w self st)) (events (cycle w self st)).
Proof.
  intros H. cbn [run]. unfold bind.
  destruct (cycle w self st) as [[c | e'] st1 evs]; cbn in H |- *.
  - discriminate H.
  - now inversion H.
Qed.

(** X12.  A cycle raises ZeroDivisionError exactly when the price history was
    fetched, its last close is zero, the forecast is above 15 and the
    balance read is positive.  It has then sent no order, written no row
    and not slept, and [run] ends with this exception however many cycles
    it was given. *)
Theorem zero_close_crashes_the_buy (w : world) (self : KrakenBot)
  (st : state) :
  let out := cycle w self st in
  let n := requests st in
  (value out = Exc ZeroDivisionError <->
   fetch_failed w self n = false /\
   exists d,
     Py.last_item (window w self n) = Some d /\ b_close d == 0 /\
     threshold < forecast_at w self n /\ 0 < usd_at w (S n)) /\
  (value out = Exc ZeroDivisionError ->
   orders_in (events out) = [] /\ csv (final out) = csv st /\
   sleeps_in (events out) = [] /\
   forall fuel,
     run w self (S fuel) st = mkOutcome (Exc ZeroDivisionError) (final out)
                                (events out)).
Proof.
  intros out n. unfold out, n.
  destruct (cycle_summary w self st) as (_ & Ho & Hc). rewrite Ho, Hc.
  unfold cycle_orders, cycle_rows.
  destruct (fetch_failed w self (requests st)) eqn:Hf.
  { rewrite (cycle_fetch_failed w self st Hf). cbn [value].
    split; [split; [discriminate | intros [H _]; discriminate H]
           | discriminate]. }
  destruct (Py.last_item (window w self (requests st))) as [d |] eqn:Hd.
  2:{ rewrite (cycle_no_bar w self st Hf Hd). cbn [value].
      split; [split; [discriminate | intros (_ & d & H & _); discriminate H]
             | discriminate]. }
  assert (Hv : value (cycle w self st) = Exc ZeroDivisionError <->
               classify (forecast_at w self (requests st)) (b_close d) = BUY
               /\ Py.gt (usd_at w (S (requests st))) 0 = true
               /\ Qeq_bool (b_close d) 0 = true).
  { rewrite (cycle_flow w self st d Hf Hd), flow_value.
    cbn [after_fetch requests]. unfold buy_value.
    destruct (classify _ _); cbn [value];
      try (split; [discriminate | intros (H & _); discriminate H]).
    destruct (Py.gt _ 0); cbn [andb value];
      [| split; [discriminate | intros (_ & H & _); discriminate H]].
    destruct (Qeq_bool _ 0); cbn [value];
      [| split; [discriminate | intros (_ & _ & H); discriminate H]].
    split; auto. }
  split.
  - rewrite Hv. split.
    + intros (Hs & Hu & Hz). split; [reflexivity |]. exists d.
      apply classify_BUY_iff in Hs. apply gt_true in Hu.
      apply Qeq_bool_eq in Hz. repeat split; auto. lra.
    + intros (_ & d' & Hd' & Hz & Ht & Hu). inversion Hd'; subst d'.
      split; [apply classify_BUY_iff; lra |].
      split; [now apply gt_true | now apply Qeq_eq_bool].
  - intros H. pose proof (run_raises w self) as Hr.
    specialize (fun fuel => Hr fuel st ZeroDivisionError H).
    apply Hv in H. destruct H as (Hs & Hu & Hz). rewrite Hs.
    unfold buy_orders, buy_rows, buy_sized. rewrite Hz, andb_false_r.
    cbn [negb andb]. rewrite app_nil_r.
    split; [reflexivity |]. split; [reflexivity |]. split; [| exact Hr].
    rewrite (cycle_flow w self st d Hf Hd).
    destruct (flow_trace w self (forecast_at w self (requests st))
                (b_close d) (after_fetch st)) as (_ & _ & Hsl & _).
    assert (Hfv : value (flow_of w self (forecast_at w self (requests st))
                           (b_close d) (after_fetch st))
                  = Exc ZeroDivisionError).
    { rewrite flow_value, Hs. unfold buy_value. cbn [after_fetch requests].
      now rewrite Hu, Hz. }
    rewrite Hfv. cbn [events]. rewrite sleeps_in_app, Hsl. reflexivity.
Qed.

Lemma zero_close_crashes_the_buy_witness :
  value (cycle crash_world default_bot init_state) = Exc ZeroDivisionError /\
  orders_in (events (cycle crash_world default_bot init_state)) = [].
Proof.
  split; [reflexivity |].
  apply (proj2 (zero_close_crashes_the_buy crash_world default_bot
                  init_state)).
  reflexivity.
Defined.

(** ** A look-back that is not positive *)

(** X13.  With a look-back of 0 the forecaster is handed the closes of the whole
    history ([data[-0:]] is [data[0:]]); with a negative look-back -k it is
    handed the closes of the history without its first k bars. *)
Theorem window_for_other_lookbacks (w : world) (self : KrakenBot)
  (st : state) :
  forall closes,
    In closes (forecasts_in (events (cycle w self st))) ->
    let bars := result (ohlc_reply w (requests st) (pair self)) in
    (lookback self = 0%Z -> closes = map b_close bars) /\
    ((lookback self < 0)%Z ->
     closes = map b_close (skipn (Z.to_nat (- lookback self)) bars)).
Proof.
  intros closes.
  destruct (cycle_summary w self st) as (Hf & _ & _). rewrite Hf.
  unfold cycle_forecasts, window, history.
  destruct (fetch_failed _ _ _); [intros [] |].
  intros H. destruct H as [<- | []].
  set (bars := result (ohlc_reply w (requests st) (pair self))).
  unfold Py.slice_from. split.
  - intros ->. change (- 0 <? 0)%Z with false. cbv iota.
    rewrite Z.min_l by lia. reflexivity.
  - intros HL.
    assert (E : (- lookback self <? 0)%Z = false) by (apply Z.ltb_ge; lia).
    rewrite E. f_equal.
    destruct (Z.min_spec (- lookback self) (Z.of_nat (length bars)))
      as [[H1 ->] | [H1 ->]]; [reflexivity |].
    rewrite Nat2Z.id. rewrite !skipn_all2; [reflexivity | lia | lia].
Qed.

Lemma window_for_other_lookbacks_witness :
  exists closes,
    In closes
       (forecasts_in
          (events (cycle (young_world 120)
                     (mkBot "XXBTZUSD" 0 33 (25 # 100) (10 # 100)
                        "trading_log.csv") init_state))) /\
    closes = map b_close (repeat (flat_bar 100) 30).
Proof.
  exists (map b_close (repeat (flat_bar 100) 30)).
  assert (H : In (map b_close (repeat (flat_bar 100) 30))
                 (forecasts_in
                    (events (cycle (young_world 120)
                               (mkBot "XXBTZUSD" 0 33 (25 # 100) (10 # 100)
                                  "trading_log.csv") init_state))))
    by (vm_compute; left; reflexivity).
  split; [exact H |].
  exact (proj1 (window_for_other_lookbacks (young_world 120)
                  (mkBot "XXBTZUSD" 0 33 (25 # 100) (10 # 100)
                     "trading_log.csv") init_state _ H) eq_refl).
Defined.

(** ** The loop *)

Lemma cycle_counts (w : world) (self : KrakenBot) (st : state) :
  let out := cycle w self st in
  (requests_in (events out) <= 5)%nat /\
  (length (orders_in (events out)) <= 2)%nat /\
  (exists rows, csv (final out) = csv st ++ rows /\ (length rows <= 1)%nat) /\
  (value out = Val Continue ->
   sleeps_in (events out) = [3600%Z] /\
   length (forecasts_in (events out)) = 1%nat) /\
  (value out = Val Return -> fetch_failed w self (requests st) = true).
Proof.
  intros out. unfold out.
  destruct (cycle_summary w self st) as (Hfo & Ho & Hc). rewrite Hfo, Ho.
  split; [| split; [| split; [| split]]].
  - destruct (fetch_failed w self (requests st)) eqn:Hf.
    { rewrite (cycle_fetch_failed w self st Hf). cbn. lia. }
    destruct (Py.last_item (window w self (requests st))) as [d |] eqn:Hd.
    2:{ rewrite (cycle_no_bar w self st Hf Hd). cbn. lia. }
    rewrite (cycle_flow w self st d Hf Hd).
    destruct (flow_trace w self (forecast_at w self (requests st))
                (b_close d) (after_fetch st)) as (_ & Hr & _ & _).
    destruct (value (flow_of w self _ _ _)); cbn [events app requests_in];
      rewrite ?requests_in_app; cbn [requests_in]; lia.
  - unfold cycle_orders, buy_orders, sell_orders.
    destruct (fetch_failed _ _ _); [cbn; lia |].
    destruct (Py.last_item _); [| cbn; lia].
    destruct (classify _ _); [| | cbn; lia].
    + destruct (buy_sized _ _ _ _); [| cbn; lia].
      destruct (accepted _); cbn; lia.
    + destruct (sell_sized _ _ _); cbn; lia.
  - eexists. split; [exact Hc |].
    unfold cycle_rows, buy_rows, sell_rows.
    destruct (fetch_failed _ _ _); [cbn; lia |].
    destruct (Py.last_item _); [| cbn; lia].
    destruct (classify _ _); [| | cbn; lia]; destruct (_ && _); cbn; lia.
  - unfold cycle_forecasts.
    destruct (fetch_failed w self (requests st)) eqn:Hf.
    { rewrite (cycle_fetch_failed w self st Hf). discriminate. }
    destruct (Py.last_item (window w self (requests st))) as [d |] eqn:Hd.
    2:{ rewrite (cycle_no_bar w self st Hf Hd). discriminate. }
    rewrite (cycle_flow w self st d Hf Hd).
    destruct (flow_trace w self (forecast_at w self (requests st))
                (b_close d) (after_fetch st)) as (_ & _ & Hs & _).
    destruct (value (flow_of w self _ _ _)); cbn [value events];
      [| discriminate].
    intros _. rewrite !sleeps_in_app, Hs. now split.
  - destruct (fetch_failed w self (requests st)) eqn:Hf; [reflexivity |].
    destruct (Py.last_item (window w self (requests st))) as [d |] eqn:Hd.
    + rewrite (cycle_flow w self st d Hf Hd).
      destruct (value (flow_of w self _ _ _)); discriminate.
    + rewrite (cycle_no_bar w self st Hf Hd). discriminate.
Qed.

(** X14.  Whatever the exchange answers, [run] given [fuel] cycles sends at most
    5 * fuel requests, of which at most 2 * fuel orders, and only appends to
    the CSV file, at most [fuel] rows: the rows that were there stay, in
    place.  While it has neither returned nor raised, it has slept 3600
    seconds once per cycle and made one forecast per cycle. *)
Theorem run_budget (w : world) (self : KrakenBot) (fuel : nat) :
  forall st,
    let out := run w self fuel st in
    (requests_in (events out) <= 5 * fuel)%nat /\
    (length (orders_in (events out)) <= 2 * fuel)%nat /\
    (exists rows,
       csv (final out) = csv st ++ rows /\ (length rows <= fuel)%nat) /\
    (value out = Val StillRunning ->
     sleeps_in (events out) = repeat 3600%Z fuel /\
     length (forecasts_in (events out)) = fuel).
Proof.
  induction fuel as [| fuel IH]; intros st.
  - cbn. split; [lia |]. split; [lia |]. split; [| now split].
    exists []. now rewrite app_nil_r.
  - pose proof (cycle_counts w self st) as Hc. cbv zeta in Hc.
    cbn [run]. unfold bind, ret.
    destruct (cycle w self st) as [[[] | e] st1 evs];
      cbn [value final events] in Hc |- *;
      destruct Hc as (Hr & Ho & (rows & Hcsv & Hrows) & Hs & _).
    + specialize (IH st1). cbv zeta in IH.
      destruct (run w self fuel st1) as [v st2 evs2].
      cbn [value final events] in IH |- *.
      destruct IH as (Hr2 & Ho2 & (rows2 & Hcsv2 & Hrows2) & Hs2).
      destruct (Hs eq_refl) as [Hsl Hfc].
      rewrite requests_in_app, orders_in_app, sleeps_in_app,
        forecasts_in_app, !length_app.
      split; [lia |]. split; [lia |]. split.
      * exists (rows ++ rows2). rewrite Hcsv2, Hcsv, app_assoc, length_app.
        split; [reflexivity | lia].
      * intros Hv. destruct (Hs2 Hv) as [-> ->]. rewrite Hsl, Hfc.
        now split.
    + rewrite app_nil_r. split; [lia |]. split; [lia |]. split.
      * exists rows. split; [exact Hcsv | lia].
      * discriminate.
    + split; [lia |]. split; [lia |]. split.
      * exists rows. split; [exact Hcsv | lia].
      * discriminate.
Qed.

Lemma run_budget_witness :
  sleeps_in (events (run (calm_world (wallet 50 2) 108) default_bot 3
                       init_state)) = repeat 3600%Z 3 /\
  length (forecasts_in
            (events (run (calm_world (wallet 50 2) 108) default_bot 3
                       init_state))) = 3%nat.
Proof.
  apply (proj2 (proj2 (proj2
           (run_budget (calm_world (wallet 50 2) 108) default_bot 3
              init_state)))).
  reflexivity.
Defined.

(** X15.  [run] returns only when a fetch of the price history has failed: if it
    has returned within [fuel] cycles, then some number of cycles, fewer
    than [fuel], went through, and the fetch that followed them failed. *)
Theorem run_returns_only_on_fetch_failure (w : world) (self : KrakenBot)
  (fuel : nat) :
  forall st,
    value (run w self fuel st) = Val Returned ->
    exists k,
      (k < fuel)%nat /\
      value (run w self k st) = Val StillRunning /\
      Py.truthy
        (error (ohlc_reply w (requests (final (run w self k st)))
                  (pair self))) = true.
Proof.
  induction fuel as [| fuel IH]; intros st; [discriminate |].
  pose proof (cycle_counts w self st) as Hc. cbv zeta in Hc.
  destruct Hc as (_ & _ & _ & _ & Hret).
  cbn [run]. unfold bind, ret.
  destruct (cycle w self st) as [[[] | e] st1 evs] eqn:Ec;
    cbn [value final events] in Hret |- *.
  - destruct (run w self fuel st1) as [v st2 evs2] eqn:Er.
    cbn [value]. intros Hv. specialize (IH st1). rewrite Er in IH.
    destruct (IH Hv) as (k & Hk & Hs & Hf).
    exists (S k). split; [lia |].
    cbn [run]. unfold bind. rewrite Ec.
    destruct (run w self k st1) as [v' st' evs'].
    cbn [value final] in *. now split.
  - intros _. exists O. split; [lia |]. split; [reflexivity |].
    apply Hret. reflexivity.
  - discriminate.
Qed.

Lemma run_returns_only_on_fetch_failure_witness :
  exists k,
    (k < 5)%nat /\
    value (run fading_world default_bot k init_state) = Val StillRunning /\
    Py.truthy
      (error (ohlc_reply fading_world
                (requests (final (run fading_world default_bot k init_state)))
                (pair default_bot))) = true.
Proof.
  apply (run_returns_only_on_fetch_failure fading_world default_bot 5
           init_state).
  reflexivity.
Defined.
